(** * Dataset preparation: a shallow embedding of [prepare_dataset]

    Source: [src/diffusionLM/utils/datasetANDtokenizer.py].

    The function orchestrates three external collaborators (a tokenizer
    provider, a dataset provider, a sequence-wrapping dataset type) and
    contains one piece of logic of its own, the text-column detection.
    Python exceptions are modelled by a result type, the external
    collaborators by a record of functions ([World]), and dictionaries by
    association lists, because the insertion order of a Python [dict] is
    observable (iteration order of the splits, order of the columns). *)

From Stdlib Require Import String Ascii List Bool ZArith Lia.
Import ListNotations.
Local Open Scope list_scope.
Local Open Scope string_scope.
Set Warnings "-register-all".

(** ** Python exceptions and results *)

(** Exception classes seen by [except Exception]. Only subclasses of
    [Exception] are modelled; [KeyboardInterrupt] and [SystemExit] are not
    failures of the preparation and are outside the model. *)
Inductive ExcClass : Type :=
| DatasetPreparationError
| KeyError
| IndexError
| ValueError
| TypeError
| OtherError (name : string).

(** An exception instance: its class and the text [str(e)] yields. *)
Record PyExc : Type := mkExc { exc_class : ExcClass; exc_str : string }.

(** [DatasetPreparationError(message)]: [__init__] stores the message and
    hands it to [Exception.__init__], so [str(e)] is the message. *)
Definition DPE (message : string) : PyExc :=
  mkExc DatasetPreparationError message.

Inductive Result (A : Type) : Type :=
| Ok (a : A)
| Raise (e : PyExc).
Arguments Ok {A} a.
Arguments Raise {A} e.

Definition bind {A B : Type} (r : Result A) (k : A -> Result B) : Result B :=
  match r with
  | Ok a => k a
  | Raise e => Raise e
  end.

Notation "x <- c ;; k" := (bind c (fun x => k))
  (at level 61, c at next level, right associativity).

(** [try: body except Exception as e: raise h(e)] *)
Definition try_except {A : Type} (body : Result A) (h : PyExc -> PyExc)
  : Result A :=
  match body with
  | Ok a => Ok a
  | Raise e => Raise (h e)
  end.

(** ** Python text: [repr] of a string and [str] of a list of strings *)

Definition squote : ascii := ascii_of_nat 39.
Definition dquote : ascii := ascii_of_nat 34.
Definition backslash : ascii := ascii_of_nat 92.

Definition str1 (c : ascii) : string := String c EmptyString.

Fixpoint contains_char (c : ascii) (s : string) : bool :=
  match s with
  | EmptyString => false
  | String d rest => Ascii.eqb c d || contains_char c rest
  end.

Definition hex_digit (n : nat) : ascii :=
  nth n ["0"; "1"; "2"; "3"; "4"; "5"; "6"; "7"; "8"; "9";
         "a"; "b"; "c"; "d"; "e"; "f"]%char "0"%char.

(** One character of [repr(s)] for the quote character [q] in use: the
    backslash and the quote are escaped, tab, newline and carriage return
    have their letter escapes, other control characters are written
    [\xhh]; every other character stands for itself. This is Python's
    [repr] on ASCII text; the bytes of a character outside ASCII are
    copied as they are, as [repr] does for a printable character. *)
Definition repr_char (q c : ascii) : string :=
  let n := nat_of_ascii c in
  if Ascii.eqb c backslash then String backslash (str1 backslash)
  else if Ascii.eqb c q then String backslash (str1 q)
  else if Nat.eqb n 9 then String backslash "t"
  else if Nat.eqb n 10 then String backslash "n"
  else if Nat.eqb n 13 then String backslash "r"
  else if Nat.ltb n 32 || Nat.eqb n 127 then
    String backslash
      (String "x" (String (hex_digit (n / 16)) (str1 (hex_digit (n mod 16)))))
  else str1 c.

Fixpoint repr_body (q : ascii) (s : string) : string :=
  match s with
  | EmptyString => EmptyString
  | String c rest => repr_char q c ++ repr_body q rest
  end.

(** [repr(s)]: single quotes, unless [s] holds a single quote and no
    double quote. *)
Definition py_repr (s : string) : string :=
  let q := if contains_char squote s && negb (contains_char dquote s)
           then dquote else squote in
  String q (repr_body q s ++ str1 q).

Fixpoint join (sep : string) (l : list string) : string :=
  match l with
  | [] => EmptyString
  | [x] => x
  | x :: rest => x ++ sep ++ join sep rest
  end.

(** [str(l)] for a list of strings, what [f"{available_columns}"] prints. *)
Definition py_str_list (l : list string) : string :=
  "[" ++ join ", " (map py_repr l) ++ "]".

(** [str(KeyError(k))] is [repr(k)]. *)
Definition key_error (k : string) : PyExc := mkExc KeyError (py_repr k).

(** [needle in haystack] on text, as a proposition. *)
Definition Contains (needle haystack : string) : Prop :=
  exists pre post, haystack = pre ++ needle ++ post.

(** ** Data model *)

Inductive PyValue : Type :=
| PyNone
| PyBool (b : bool)
| PyInt (z : Z)
| PyStr (s : string)
| PyList (l : list PyValue).

(** [isinstance(v, str)] *)
Definition isinstance_str (v : PyValue) : bool :=
  match v with
  | PyStr _ => true
  | _ => false
  end.

(** [k in l], for a list of names. *)
Definition name_in (k : string) (l : list string) : bool :=
  existsb (String.eqb k) l.

(** A [dict] with string keys, in insertion order. *)
Definition Dict (V : Type) : Type := list (string * V).

Fixpoint dict_get {V : Type} (d : Dict V) (k : string) : option V :=
  match d with
  | [] => None
  | (k', v) :: rest => if String.eqb k k' then Some v else dict_get rest k
  end.

Definition dict_keys {V : Type} (d : Dict V) : list string := map fst d.

(** [d[k]], raising [KeyError(k)] when the key is missing. *)
Definition dict_getitem {V : Type} (d : Dict V) (k : string) : Result V :=
  match dict_get d k with
  | Some v => Ok v
  | None => Raise (key_error k)
  end.

(** [k in d] *)
Definition dict_contains {V : Type} (d : Dict V) (k : string) : bool :=
  match dict_get d k with
  | Some _ => true
  | None => false
  end.

(** A record of a split: column name to value. *)
Definition Row : Type := Dict PyValue.

(** A split: its declared column names and its records. *)
Record Dataset : Type := mkDataset {
  column_names : list string;
  rows : list Row
}.

(** The raw or tokenized dataset: split name to split. *)
Definition DatasetDict : Type := Dict Dataset.

(** A batch handed to the mapped function: column name to the values of
    that column for the records of the batch. *)
Definition Batch : Type := Dict (list PyValue).

(** [split[0]]: the first record, [IndexError] on an empty split. *)
Definition dataset_getitem0 (d : Dataset) : Result Row :=
  match rows d with
  | r :: _ => Ok r
  | [] => Raise (mkExc IndexError "Invalid key: 0 is out of bounds for size 0")
  end.

(** ** The tokenizer handle

    The handle comes from the tokenizer provider. The preparation reads
    and writes four things on it: [mask_token], [pad_token],
    [add_special_tokens] and the two id accessors. The handle is modelled
    by its vocabulary (the id of a token is its position) and its two
    special-token attributes. *)
Record Tokenizer : Type := mkTokenizer {
  vocab : list string;
  mask_token : option string;
  pad_token : option string
}.

Fixpoint index_from (i : Z) (tok : string) (l : list string) : option Z :=
  match l with
  | [] => None
  | x :: rest => if String.eqb tok x then Some i
                 else index_from (i + 1) tok rest
  end.

(** [convert_tokens_to_ids] on one token of the vocabulary. *)
Definition token_id (t : Tokenizer) (tok : string) : option Z :=
  index_from 0 tok (vocab t).

(** [tokenizer.mask_token_id]: [None] when no mask token is set. *)
Definition mask_token_id (t : Tokenizer) : option Z :=
  match mask_token t with
  | None => None
  | Some tok => token_id t tok
  end.

(** [tokenizer.pad_token_id] *)
Definition pad_token_id (t : Tokenizer) : option Z :=
  match pad_token t with
  | None => None
  | Some tok => token_id t tok
  end.

(** A token enters the vocabulary at the end, unless it is there already. *)
Definition add_token (v : list string) (tok : string) : list string :=
  if name_in tok v then v else (v ++ [tok])%list.

(** [tokenizer.add_special_tokens({attr: tok, ...})], in place: each
    entry sets the attribute and registers the token. *)
Fixpoint add_special_tokens (t : Tokenizer) (special : Dict string)
  : Tokenizer :=
  match special with
  | [] => t
  | (attr, tok) :: rest =>
      let t' :=
        if String.eqb attr "mask_token" then
          mkTokenizer (add_token (vocab t) tok) (Some tok) (pad_token t)
        else if String.eqb attr "pad_token" then
          mkTokenizer (add_token (vocab t) tok) (mask_token t) (Some tok)
        else t in
      add_special_tokens t' rest
  end.

(** ** The sequence wrapper *)

(** Modelled from the spec: the class [PYTORCH_Dataset] of the module
    [diffusionLM/utils/dataset.py], which is not part of the sources at
    hand. The spec describes it as a wrapper that consumes a tokenized
    split plus a mask-token id and a pad-token id; its constructor is
    taken to store the three. *)
Record PYTORCH_Dataset : Type := mkPYTORCH_Dataset {
  pd_data : Dataset;
  pd_mask_token_id : option Z;
  pd_pad_token_id : option Z
}.

(** ** The external collaborators *)

(** The column names a [remove_columns] argument lists; [None] lists
    none. *)
Definition names_of (remove_columns : option (list string)) : list string :=
  match remove_columns with
  | Some ks => ks
  | None => []
  end.

(** What the preparation calls outside of its own code:
    [AutoTokenizer.from_pretrained(name)],
    [load_dataset(name, cache_dir=...)],
    the tokenizer call [tokenizer(texts, padding="max_length",
    truncation=True, max_length=..., return_tensors="pt")] and
    [dataset.map(function, batched=True, num_proc=..., remove_columns=...)].
    Each may raise. *)
Record World : Type := mkWorld {
  from_pretrained : string -> Result Tokenizer;
  load_dataset : string -> option string -> Result DatasetDict;
  tokenizer_call : Tokenizer -> list PyValue -> Z -> Result Batch;
  dataset_map : (Batch -> Result Batch) -> Z -> option (list string) ->
                DatasetDict -> Result DatasetDict
}.

(** ** [prepare_dataset], step by step *)

Module Prepare.

(** Lines 49-55: ensure the tokenizer has required tokens. *)
Definition ensure_special_tokens (tokenizer : Tokenizer) : Tokenizer :=
  let tokenizer :=
    match mask_token tokenizer with
    | None => add_special_tokens tokenizer [("mask_token", "[MASK]")]
    | Some _ => tokenizer
    end in
  match pad_token tokenizer with
  | None => add_special_tokens tokenizer [("pad_token", "[PAD]")]
  | Some _ => tokenizer
  end.

(** Lines 59-62: the load and its wrap at the call site. *)
Definition load_raw_dataset (W : World) (dataset_name : string)
    (cache_dir : option string) : Result DatasetDict :=
  try_except (load_dataset W dataset_name cache_dir)
    (fun e => DPE ("Failed to load dataset " ++ dataset_name ++ ": "
                   ++ exc_str e)).

(** Line 67 *)
Definition possible_columns : list string :=
  ["text"; "content"; "input_text"; "sentence"; "document"].

(** Lines 71-74: [next((col for col in possible_columns
    if col in available_columns), None)] *)
Definition first_candidate (available_columns : list string)
  : option string :=
  find (fun col => name_in col available_columns) possible_columns.

(** Lines 78-81: the loop over the available columns; each iteration
    reads [dataset['train'][0][col]] anew. *)
Fixpoint first_string_column (train : Dataset) (cols : list string)
  : Result (option string) :=
  match cols with
  | [] => Ok None
  | col :: rest =>
      record <- dataset_getitem0 train ;;
      value <- dict_getitem record col ;;
      if isinstance_str value then Ok (Some col)
      else first_string_column train rest
  end.

(** Lines 66-86: auto-detection of the text column. *)
Definition detect_text_column (dataset : DatasetDict) : Result string :=
  train <- dict_getitem dataset "train" ;;
  let available_columns := column_names train in
  match first_candidate available_columns with
  | Some col => Ok col
  | None =>
      found <- first_string_column train available_columns ;;
      match found with
      | Some col => Ok col
      | None =>
          Raise (DPE ("Could not detect text column. Available columns: "
                      ++ py_str_list available_columns))
      end
  end.

(** Line 65: detection runs only when no column was supplied. *)
Definition resolve_text_column (dataset : DatasetDict)
    (text_column : option string) : Result string :=
  match text_column with
  | None => detect_text_column dataset
  | Some col => Ok col
  end.

(** Lines 91-101: the mapped function, a closure over the tokenizer, the
    resolved column and [max_length]. *)
Definition tokenize_function (W : World) (tokenizer : Tokenizer)
    (text_column : string) (max_length : Z) (examples : Batch)
  : Result Batch :=
  try_except
    (texts <- dict_getitem examples text_column ;;
     tokenizer_call W tokenizer texts max_length)
    (fun e => DPE ("Tokenization failed: " ++ exc_str e)).

(** Line 105: [[text_column] if text_column in
    dataset['train'].column_names else None], computed on the raw
    dataset before the map. *)
Definition remove_columns_arg (dataset : DatasetDict) (text_column : string)
  : Result (option (list string)) :=
  train <- dict_getitem dataset "train" ;;
  Ok (if name_in text_column (column_names train)
      then Some [text_column] else None).

(** Lines 116-130: the wrappers and the returned triple. *)
Definition assemble (tokenized_dataset : DatasetDict) (tokenizer : Tokenizer)
  : Result (PYTORCH_Dataset * option PYTORCH_Dataset * Tokenizer) :=
  train <- dict_getitem tokenized_dataset "train" ;;
  let train_dataset :=
    mkPYTORCH_Dataset train (mask_token_id tokenizer)
                      (pad_token_id tokenizer) in
  val_dataset <-
    (if dict_contains tokenized_dataset "validation" then
       validation <- dict_getitem tokenized_dataset "validation" ;;
       Ok (Some (mkPYTORCH_Dataset validation (mask_token_id tokenizer)
                                   (pad_token_id tokenizer)))
     else Ok None) ;;
  Ok (train_dataset, val_dataset, tokenizer).

(** Lines 44-130: the body of the outer [try]. *)
Definition prepare_dataset_body (W : World) (dataset_name : string)
    (tokenizer_name : string) (max_length : Z) (cache_dir : option string)
    (num_proc : Z) (text_column : option string)
  : Result (PYTORCH_Dataset * option PYTORCH_Dataset * Tokenizer) :=
  tokenizer <- from_pretrained W tokenizer_name ;;
  let tokenizer := ensure_special_tokens tokenizer in
  dataset <- load_raw_dataset W dataset_name cache_dir ;;
  text_column <- resolve_text_column dataset text_column ;;
  remove_columns <- remove_columns_arg dataset text_column ;;
  tokenized_dataset <-
    dataset_map W (tokenize_function W tokenizer text_column max_length)
                num_proc remove_columns dataset ;;
  assemble tokenized_dataset tokenizer.

(** Lines 43 and 132-134: the outer boundary, [except Exception as e]
    around the whole body (the log line is not modelled). *)
Definition prepare_dataset (W : World) (dataset_name : string)
    (tokenizer_name : string) (max_length : Z) (cache_dir : option string)
    (num_proc : Z) (text_column : option string)
  : Result (PYTORCH_Dataset * option PYTORCH_Dataset * Tokenizer) :=
  try_except
    (prepare_dataset_body W dataset_name tokenizer_name max_length cache_dir
                          num_proc text_column)
    (fun e => DPE ("Dataset preparation failed: " ++ exc_str e)).

End Prepare.

(** ** A reference world

    Executable stand-ins for the collaborators, used to run the
    preparation on concrete inputs. The map follows the dataset
    library's documented behaviour, with one batch per split: a column
    named in [remove_columns] must exist in the split, an empty split is
    returned without calling the function, and otherwise the columns the
    function returns are added to the columns that are kept. *)

Module Reference.

Fixpoint dict_set {V : Type} (d : Dict V) (k : string) (v : V) : Dict V :=
  match d with
  | [] => [(k, v)]
  | (k', v') :: rest =>
      if String.eqb k k' then (k, v) :: rest
      else (k', v') :: dict_set rest k v
  end.

Definition dict_remove {V : Type} (d : Dict V) (ks : list string) : Dict V :=
  filter (fun kv => negb (name_in (fst kv) ks)) d.

Definition remove_names (l ks : list string) : list string :=
  filter (fun c => negb (name_in c ks)) l.

(** The value of a column in a record; a missing field reads as null. *)
Definition field (r : Row) (c : string) : PyValue :=
  match dict_get r c with
  | Some v => v
  | None => PyNone
  end.

(** The whole split as one batch, keyed by its column names. *)
Definition split_batch (s : Dataset) : Batch :=
  map (fun c => (c, map (fun r => field r c) (rows s))) (column_names s).

(** Write the values of one output column into the records, in order. *)
Fixpoint set_column (rs : list Row) (k : string) (vals : list PyValue)
  : list Row :=
  match rs, vals with
  | r :: rs', v :: vals' => dict_set r k v :: set_column rs' k vals'
  | _, _ => rs
  end.

Definition add_name (l : list string) (k : string) : list string :=
  if name_in k l then l else (l ++ [k])%list.

(** The kept columns extended with the output of the function. *)
Definition merge_output (s : Dataset) (out : Batch) : Dataset :=
  fold_left
    (fun acc kv => mkDataset (add_name (column_names acc) (fst kv))
                             (set_column (rows acc) (fst kv) (snd kv)))
    out s.

Definition drop_columns (s : Dataset) (ks : list string) : Dataset :=
  mkDataset (remove_names (column_names s) ks)
            (map (fun r => dict_remove r ks) (rows s)).

Definition missing_columns (s : Dataset) (ks : list string) : list string :=
  filter (fun k => negb (name_in k (column_names s))) ks.

(** [Dataset.map(function, batched=True, remove_columns=...)] *)
Definition map_split (function : Batch -> Result Batch)
    (remove_columns : option (list string)) (s : Dataset) : Result Dataset :=
  let ks := names_of remove_columns in
  match missing_columns s ks with
  | _ :: _ =>
      Raise (mkExc ValueError
               ("Column to remove " ++ py_str_list (missing_columns s ks)
                ++ " not in the dataset. Current columns in the dataset: "
                ++ py_str_list (column_names s)))
  | [] =>
      match rows s with
      | [] => Ok (drop_columns s ks)
      | _ :: _ =>
          out <- function (split_batch s) ;;
          Ok (merge_output (drop_columns s ks) out)
      end
  end.

(** [DatasetDict.map]: every split in turn, the first failure aborts. *)
Fixpoint map_splits (function : Batch -> Result Batch)
    (remove_columns : option (list string)) (d : DatasetDict)
  : Result DatasetDict :=
  match d with
  | [] => Ok []
  | (name, s) :: rest =>
      s' <- map_split function remove_columns s ;;
      rest' <- map_splits function remove_columns rest ;;
      Ok ((name, s') :: rest')
  end.

Definition hf_map (function : Batch -> Result Batch) (num_proc : Z)
    (remove_columns : option (list string)) (d : DatasetDict)
  : Result DatasetDict :=
  map_splits function remove_columns d.

(** A byte-level tokenizer: the ids of a text are its character codes,
    cut at [max_length] and filled up with the pad id. *)
Fixpoint codes (s : string) : list Z :=
  match s with
  | EmptyString => []
  | String c rest => Z.of_nat (nat_of_ascii c) :: codes rest
  end.

Definition pad_to (n : nat) (fill : Z) (l : list Z) : list Z :=
  (firstn n l ++ repeat fill (n - length (firstn n l)))%list.

Definition encode_one (t : Tokenizer) (max_length : Z) (v : PyValue)
  : option (PyValue * PyValue) :=
  match v with
  | PyStr s =>
      let n := Z.to_nat max_length in
      let fill := match pad_token_id t with Some i => i | None => 0%Z end in
      let ids := codes s in
      Some (PyList (map PyInt (pad_to n fill ids)),
            PyList (map PyInt (pad_to n 0%Z (map (fun _ => 1%Z) ids))))
  | _ => None
  end.

Fixpoint encode_all (t : Tokenizer) (max_length : Z) (texts : list PyValue)
  : option (list PyValue * list PyValue) :=
  match texts with
  | [] => Some ([], [])
  | v :: rest =>
      match encode_one t max_length v, encode_all t max_length rest with
      | Some (ids, mask), Some (idss, masks) =>
          Some (ids :: idss, mask :: masks)
      | _, _ => None
      end
  end.

Definition byte_tokenizer_call (t : Tokenizer) (texts : list PyValue)
    (max_length : Z) : Result Batch :=
  match encode_all t max_length texts with
  | Some (idss, masks) => Ok [("input_ids", idss); ("attention_mask", masks)]
  | None => Raise (mkExc ValueError "text input must be of type `str`")
  end.

(** A provider that knows one tokenizer without special tokens and one
    that has both. *)
Definition bare_tokenizer : Tokenizer :=
  mkTokenizer ["a"; "b"; "c"] None None.

Definition full_tokenizer : Tokenizer :=
  mkTokenizer ["[PAD]"; "[MASK]"; "a"; "b"] (Some "[MASK]") (Some "[PAD]").

Definition provider (name : string) : Result Tokenizer :=
  if String.eqb name "gpt2" then Ok bare_tokenizer
  else if String.eqb name "bert" then Ok full_tokenizer
  else Raise (mkExc (OtherError "OSError")
                ("Can't load tokenizer for " ++ py_repr name)).

(** The world over a table of known datasets. *)
Definition hub (table : Dict DatasetDict) (name : string)
    (cache_dir : option string) : Result DatasetDict :=
  match dict_get table name with
  | Some d => Ok d
  | None =>
      Raise (mkExc (OtherError "FileNotFoundError")
               ("Couldn't find a dataset script at " ++ name))
  end.

Definition world (table : Dict DatasetDict) : World :=
  mkWorld provider (hub table) byte_tokenizer_call hf_map.

(** Sample datasets. *)
Definition two_texts : DatasetDict :=
  [("train", mkDataset ["text"] [[("text", PyStr "a")]; [("text", PyStr "bb")]])].

Definition with_validation : DatasetDict :=
  [("train", mkDataset ["text"; "label"]
               [[("text", PyStr "a"); ("label", PyInt 1)]]);
   ("validation", mkDataset ["text"; "label"]
               [[("text", PyStr "b"); ("label", PyInt 0)]])].

Definition foo_bar : DatasetDict :=
  [("train", mkDataset ["bar"; "foo"]
               [[("bar", PyInt 7); ("foo", PyStr "hello")]])].

Definition numbers_only : DatasetDict :=
  [("train", mkDataset ["x"; "y"] [[("x", PyInt 1); ("y", PyInt 2)]])].

Definition test_only : DatasetDict :=
  [("test", mkDataset ["text"] [[("text", PyStr "a")]])].

Definition table : Dict DatasetDict :=
  [("two_texts", two_texts); ("with_validation", with_validation);
   ("foo_bar", foo_bar); ("numbers_only", numbers_only);
   ("test_only", test_only)].

(** What the preparation returns on [with_validation] with the
    tokenizer that has both special tokens. *)
Definition encoded (label code : Z) : Dataset :=
  mkDataset ["label"; "input_ids"; "attention_mask"]
    [[("label", PyInt label);
      ("input_ids", PyList [PyInt code; PyInt 0; PyInt 0; PyInt 0]);
      ("attention_mask", PyList [PyInt 1; PyInt 0; PyInt 0; PyInt 0])]].

Definition with_validation_train : PYTORCH_Dataset :=
  mkPYTORCH_Dataset (encoded 1 97) (Some 1%Z) (Some 0%Z).

Definition with_validation_val : PYTORCH_Dataset :=
  mkPYTORCH_Dataset (encoded 0 98) (Some 1%Z) (Some 0%Z).

(** What the map yields on [two_texts] with the tokenizer that had no
    special tokens (pad id 4 after provisioning). *)
Definition two_texts_encoded : Dataset :=
  mkDataset ["input_ids"; "attention_mask"]
    [[("input_ids", PyList [PyInt 97; PyInt 4; PyInt 4; PyInt 4]);
      ("attention_mask", PyList [PyInt 1; PyInt 0; PyInt 0; PyInt 0])];
     [("input_ids", PyList [PyInt 98; PyInt 98; PyInt 4; PyInt 4]);
      ("attention_mask", PyList [PyInt 1; PyInt 1; PyInt 0; PyInt 0])]].

Definition provisioned_tokenizer : Tokenizer :=
  mkTokenizer ["a"; "b"; "c"; "[MASK]"; "[PAD]"]
              (Some "[MASK]") (Some "[PAD]").

(** A dataset whose train split has columns and no record, and a table
    that knows it. *)
Definition empty_train : DatasetDict :=
  [("train", mkDataset ["id"; "body"] [])].

Definition more_table : Dict DatasetDict :=
  [("empty_train", empty_train); ("two_texts", two_texts);
   ("with_validation", with_validation)].

End Reference.

(** ** Statements about the collaborators and readings of the claims *)

(** The special tokens a handle declares are entries of its vocabulary. *)
Definition special_tokens_in_vocab (t : Tokenizer) : Prop :=
  (forall tok, mask_token t = Some tok -> In tok (vocab t)) /\
  (forall tok, pad_token t = Some tok -> In tok (vocab t)).

(** The map runs the function: on a dataset with at least one record,
    if the function raises [e] on every batch whose keys are column
    names of the dataset, the map raises [e]. *)
Definition map_runs_function (W : World) : Prop :=
  forall function num_proc dataset e,
    (exists name s r, In (name, s) dataset /\ In r (rows s)) ->
    (forall b,
       (forall k, In k (dict_keys b) ->
          exists name s, In (name, s) dataset /\ In k (column_names s)) ->
       function b = Raise e) ->
    dataset_map W function num_proc None dataset = Raise e.


(** The map keeps the splits: the result has a split of a name exactly
    when the input has one. *)
Definition map_keeps_splits (W : World) : Prop :=
  forall function num_proc remove_columns dataset mapped,
    dataset_map W function num_proc remove_columns dataset = Ok mapped ->
    forall name, dict_contains mapped name = dict_contains dataset name.


(** * Properties *)

Import Prepare.

(** ** Text and list helpers *)

Lemma append_assoc (a b c : string) : (a ++ b) ++ c = a ++ (b ++ c).
Proof.
  induction a as [|x a IH]; simpl; [reflexivity | now rewrite IH].
Qed.

Lemma contains_here (needle post : string) : Contains needle (needle ++ post).
Proof. exists EmptyString, post. reflexivity. Qed.

Lemma contains_end (needle : string) : Contains needle needle.
Proof.
  exists EmptyString, EmptyString. simpl.
  induction needle as [|x n IH]; simpl; [reflexivity | now rewrite <- IH].
Qed.

Lemma contains_after (pre needle s : string) :
  Contains needle s -> Contains needle (pre ++ s).
Proof.
  intros (a & b & ->). exists (pre ++ a), b. now rewrite append_assoc.
Qed.

Lemma contains_before (needle s post : string) :
  Contains needle s -> Contains needle (s ++ post).
Proof.
  intros (a & b & ->). exists a, (b ++ post).
  now rewrite !append_assoc.
Qed.

Lemma name_in_In (k : string) (l : list string) :
  name_in k l = true <-> In k l.
Proof.
  unfold name_in. rewrite existsb_exists. split.
  - intros (x & Hx & E). apply String.eqb_eq in E. now subst.
  - intros H. exists k. split; [assumption | apply String.eqb_refl].
Qed.

Lemma name_in_not_In (k : string) (l : list string) :
  name_in k l = false <-> ~ In k l.
Proof.
  rewrite <- name_in_In. destruct (name_in k l); split; intros H;
    try reflexivity; try discriminate; try (intros E; discriminate).
  exfalso. now apply H.
Qed.

Lemma find_first {A : Type} (f : A -> bool) (pre : list A) (x : A)
    (post : list A) :
  (forall p, In p pre -> f p = false) -> f x = true ->
  find f (pre ++ x :: post) = Some x.
Proof.
  induction pre as [|p pre IH]; simpl; intros Hpre Hx.
  - now rewrite Hx.
  - rewrite (Hpre p (or_introl eq_refl)). apply IH; auto.
Qed.

Lemma dict_getitem_some {V : Type} (d : Dict V) (k : string) (v : V) :
  dict_get d k = Some v -> dict_getitem d k = Ok v.
Proof. unfold dict_getitem. now intros ->. Qed.

Lemma dict_getitem_none {V : Type} (d : Dict V) (k : string) :
  dict_get d k = None -> dict_getitem d k = Raise (key_error k).
Proof. unfold dict_getitem. now intros ->. Qed.

(** ** The outer boundary (C1) *)




(** ** Column detection (C2, C3, C4) *)

(** C2: without a supplied [text_column], detection picks the first name
    of the candidate list [text, content, input_text, sentence, document]
    that occurs among the column names of the train split; a train split
    with a column [text] always yields [text]. *)
Theorem detection_picks_first_candidate
    (dataset : DatasetDict) (train : Dataset) :
  dict_get dataset "train" = Some train ->
  possible_columns = ["text"; "content"; "input_text"; "sentence"; "document"]
  /\ (forall pre col post,
        possible_columns = (pre ++ col :: post)%list ->
        In col (column_names train) ->
        (forall p, In p pre -> ~ In p (column_names train)) ->
        resolve_text_column dataset None = Ok col)
  /\ (In "text" (column_names train) ->
      resolve_text_column dataset None = Ok "text").
Proof.
  intros Htrain.
  assert (Hfirst : forall pre col post,
             possible_columns = (pre ++ col :: post)%list ->
             In col (column_names train) ->
             (forall p, In p pre -> ~ In p (column_names train)) ->
             resolve_text_column dataset None = Ok col).
  { intros pre col post Hsplit Hin Hpre.
    unfold resolve_text_column, detect_text_column.
    rewrite (dict_getitem_some _ _ _ Htrain). simpl.
    unfold first_candidate. rewrite Hsplit.
    rewrite find_first; [reflexivity | | now apply name_in_In].
    intros p Hp. apply name_in_not_In. now apply Hpre. }
  split; [reflexivity|]. split; [exact Hfirst|].
  intros Htext.
  apply (Hfirst [] "text" ["content"; "input_text"; "sentence"; "document"]);
    [reflexivity | assumption | intros p []].
Qed.

Lemma detection_picks_first_candidate_witness :
  possible_columns = ["text"; "content"; "input_text"; "sentence"; "document"]
  /\ (forall pre col post,
        possible_columns = (pre ++ col :: post)%list ->
        In col ["content"; "label"; "text"] ->
        (forall p, In p pre -> ~ In p ["content"; "label"; "text"]) ->
        resolve_text_column
          [("train", mkDataset ["content"; "label"; "text"] [])] None
        = Ok col)
  /\ (In "text" ["content"; "label"; "text"] ->
      resolve_text_column
        [("train", mkDataset ["content"; "label"; "text"] [])] None
      = Ok "text").
Proof.
  apply (detection_picks_first_candidate
           [("train", mkDataset ["content"; "label"; "text"] [])]
           (mkDataset ["content"; "label"; "text"] [])).
  reflexivity.
Defined.

Lemma first_candidate_none (cols : list string) :
  (forall c, In c possible_columns -> ~ In c cols) ->
  first_candidate cols = None.
Proof.
  intros H. unfold first_candidate.
  destruct (find _ possible_columns) as [c|] eqn:E; [|reflexivity].
  apply find_some in E as [Hc Hin]. apply name_in_In in Hin.
  now destruct (H c Hc).
Qed.

Lemma first_string_column_found (train : Dataset) (record : Row)
    (pre : list string) (col : string) (post : list string) (s : string) :
  dataset_getitem0 train = Ok record ->
  (forall p, In p pre ->
     exists v, dict_get record p = Some v /\ isinstance_str v = false) ->
  dict_get record col = Some (PyStr s) ->
  first_string_column train (pre ++ col :: post) = Ok (Some col).
Proof.
  intros Hrec Hpre Hcol.
  induction pre as [|p pre IH]; simpl; rewrite Hrec; simpl.
  - now rewrite (dict_getitem_some _ _ _ Hcol).
  - destruct (Hpre p (or_introl eq_refl)) as (v & Hv & Hns).
    rewrite (dict_getitem_some _ _ _ Hv). simpl. rewrite Hns.
    apply IH. intros q Hq. apply Hpre. now right.
Qed.

Lemma first_string_column_none (train : Dataset) (cols : list string) :
  (forall c, In c cols ->
     exists record v, dataset_getitem0 train = Ok record /\
                      dict_get record c = Some v /\
                      isinstance_str v = false) ->
  first_string_column train cols = Ok None.
Proof.
  induction cols as [|c cols IH]; simpl; intros H; [reflexivity|].
  destruct (H c (or_introl eq_refl)) as (record & v & Hrec & Hv & Hns).
  rewrite Hrec. simpl. rewrite (dict_getitem_some _ _ _ Hv). simpl.
  rewrite Hns. apply IH. intros q Hq. apply H. now right.
Qed.

(** C3: without a supplied [text_column] and with no candidate name
    among the columns of the train split, detection walks the column
    names in their declared order and picks the first one whose value in
    the first train record is a string. With a string column [foo] and an
    integer column [bar], in either order, it picks [foo]. *)
Theorem detection_falls_back_to_first_string_column
    (dataset : DatasetDict) (train : Dataset) (record : Row) :
  dict_get dataset "train" = Some train ->
  (forall c, In c possible_columns -> ~ In c (column_names train)) ->
  dataset_getitem0 train = Ok record ->
  (forall pre col post s,
      column_names train = (pre ++ col :: post)%list ->
      (forall p, In p pre ->
         exists v, dict_get record p = Some v /\ isinstance_str v = false) ->
      dict_get record col = Some (PyStr s) ->
      resolve_text_column dataset None = Ok col)
  /\ (forall s z,
        column_names train = ["foo"; "bar"] \/
        column_names train = ["bar"; "foo"] ->
        dict_get record "foo" = Some (PyStr s) ->
        dict_get record "bar" = Some (PyInt z) ->
        resolve_text_column dataset None = Ok "foo").
Proof.
  intros Htrain Hnone Hrec.
  assert (Hgen : forall pre col post s,
      column_names train = (pre ++ col :: post)%list ->
      (forall p, In p pre ->
         exists v, dict_get record p = Some v /\ isinstance_str v = false) ->
      dict_get record col = Some (PyStr s) ->
      resolve_text_column dataset None = Ok col).
  { intros pre col post s Hcols Hpre Hcol.
    unfold resolve_text_column, detect_text_column.
    rewrite (dict_getitem_some _ _ _ Htrain). simpl.
    rewrite (first_candidate_none _ Hnone), Hcols.
    now rewrite (first_string_column_found train record pre col post s). }
  split; [exact Hgen|].
  intros s z [Hcols|Hcols] Hfoo Hbar.
  - apply (Hgen [] "foo" ["bar"] s); [assumption | intros p [] | assumption].
  - apply (Hgen ["bar"] "foo" [] s); [assumption | | assumption].
    intros p [<-|[]]. now exists (PyInt z).
Qed.

Lemma detection_falls_back_to_first_string_column_witness :
  (forall pre col post s,
      ["bar"; "foo"] = (pre ++ col :: post)%list ->
      (forall p, In p pre ->
         exists v, dict_get [("bar", PyInt 7); ("foo", PyStr "hello")] p
                   = Some v /\ isinstance_str v = false) ->
      dict_get [("bar", PyInt 7); ("foo", PyStr "hello")] col
      = Some (PyStr s) ->
      resolve_text_column Reference.foo_bar None = Ok col)
  /\ (forall s z,
        ["bar"; "foo"] = ["foo"; "bar"] \/ ["bar"; "foo"] = ["bar"; "foo"] ->
        dict_get [("bar", PyInt 7); ("foo", PyStr "hello")] "foo"
        = Some (PyStr s) ->
        dict_get [("bar", PyInt 7); ("foo", PyStr "hello")] "bar"
        = Some (PyInt z) ->
        resolve_text_column Reference.foo_bar None = Ok "foo").
Proof.
  apply (detection_falls_back_to_first_string_column
           Reference.foo_bar
           (mkDataset ["bar"; "foo"]
                      [[("bar", PyInt 7); ("foo", PyStr "hello")]])
           [("bar", PyInt 7); ("foo", PyStr "hello")]).
  - reflexivity.
  - intros c Hc Hin. simpl in Hc, Hin.
    repeat (destruct Hc as [<-|Hc]; [now repeat destruct Hin as [Hin|Hin]|]).
    exact Hc.
  - reflexivity.
Defined.

(** C4: without a supplied [text_column], with no candidate name among
    the columns of the train split and no column whose value in the
    first train record is a string, [prepare_dataset] raises a
    [DatasetPreparationError] whose message contains the printed list of
    all available column names. *)
Theorem detection_fails_closed
    (W : World) (dataset_name tokenizer_name : string) (max_length : Z)
    (cache_dir : option string) (num_proc : Z)
    (tokenizer : Tokenizer) (dataset : DatasetDict) (train : Dataset) :
  from_pretrained W tokenizer_name = Ok tokenizer ->
  load_dataset W dataset_name cache_dir = Ok dataset ->
  dict_get dataset "train" = Some train ->
  (forall c, In c possible_columns -> ~ In c (column_names train)) ->
  (forall c, In c (column_names train) ->
     exists record v, dataset_getitem0 train = Ok record /\
                      dict_get record c = Some v /\
                      isinstance_str v = false) ->
  prepare_dataset W dataset_name tokenizer_name max_length cache_dir
                  num_proc None
  = Raise (DPE ("Dataset preparation failed: "
                ++ "Could not detect text column. Available columns: "
                ++ py_str_list (column_names train)))
  /\ Contains (py_str_list (column_names train))
              ("Dataset preparation failed: "
               ++ "Could not detect text column. Available columns: "
               ++ py_str_list (column_names train)).
Proof.
  intros Htok Hload Htrain Hnone Hnostr. split.
  - unfold prepare_dataset, prepare_dataset_body, load_raw_dataset.
    rewrite Htok, Hload. simpl.
    unfold detect_text_column.
    rewrite (dict_getitem_some _ _ _ Htrain). simpl.
    rewrite (first_candidate_none _ Hnone).
    rewrite (first_string_column_none _ _ Hnostr). reflexivity.
  - apply contains_after, contains_after, contains_end.
Qed.

Lemma detection_fails_closed_witness :
  prepare_dataset (Reference.world Reference.table) "numbers_only" "gpt2"
                  4%Z None 4%Z None
  = Raise (DPE ("Dataset preparation failed: "
                ++ "Could not detect text column. Available columns: "
                ++ py_str_list ["x"; "y"]))
  /\ Contains (py_str_list ["x"; "y"])
              ("Dataset preparation failed: "
               ++ "Could not detect text column. Available columns: "
               ++ py_str_list ["x"; "y"]).
Proof.
  apply (detection_fails_closed
           (Reference.world Reference.table) "numbers_only" "gpt2" 4%Z None
           4%Z Reference.bare_tokenizer Reference.numbers_only
           (mkDataset ["x"; "y"] [[("x", PyInt 1); ("y", PyInt 2)]])).
  - reflexivity.
  - reflexivity.
  - reflexivity.
  - intros c Hc Hin. simpl in Hc, Hin.
    repeat (destruct Hc as [<-|Hc]; [now repeat destruct Hin as [Hin|Hin]|]).
    exact Hc.
  - intros c Hin. exists [("x", PyInt 1); ("y", PyInt 2)].
    simpl in Hin. destruct Hin as [<-|[<-|[]]].
    + now exists (PyInt 1).
    + now exists (PyInt 2).
Defined.

(** ** Tokenizer provisioning (C6) *)

Lemma index_from_In (i : Z) (tok : string) (l : list string) :
  In tok l -> index_from i tok l <> None.
Proof.
  revert i. induction l as [|x l IH]; simpl; intros i H; [contradiction|].
  destruct (String.eqb_spec tok x) as [->|Hne]; [discriminate|].
  destruct H as [->|H]; [congruence | now apply IH].
Qed.

Lemma index_from_app (i : Z) (tok : string) (l extra : list string) :
  In tok l -> index_from i tok (l ++ extra)%list = index_from i tok l.
Proof.
  revert i. induction l as [|x l IH]; simpl; intros i H; [contradiction|].
  destruct (String.eqb_spec tok x) as [->|Hne]; [reflexivity|].
  destruct H as [->|H]; [congruence | now apply IH].
Qed.

Lemma add_token_In (v : list string) (tok : string) : In tok (add_token v tok).
Proof.
  unfold add_token. destruct (name_in tok v) eqn:E.
  - now apply name_in_In.
  - apply in_or_app. right. now left.
Qed.

Lemma add_token_keeps (v : list string) (tok other : string) :
  In other v -> In other (add_token v tok).
Proof.
  unfold add_token. destruct (name_in tok v); [auto|].
  intros H. apply in_or_app. now left.
Qed.

Lemma add_token_index (v : list string) (tok other : string) :
  In other v -> index_from 0 other (add_token v tok) = index_from 0 other v.
Proof.
  unfold add_token. destruct (name_in tok v); [reflexivity|].
  apply index_from_app.
Qed.

Lemma ensure_special_tokens_spec (t : Tokenizer) :
  special_tokens_in_vocab t ->
  let t' := ensure_special_tokens t in
  mask_token_id t' <> None /\ pad_token_id t' <> None /\
  (mask_token t = None ->
   mask_token t' = Some "[MASK]" /\ In "[MASK]" (vocab t')) /\
  (pad_token t = None ->
   pad_token t' = Some "[PAD]" /\ In "[PAD]" (vocab t')) /\
  (mask_token t <> None -> mask_token_id t' = mask_token_id t) /\
  (pad_token t <> None -> pad_token_id t' = pad_token_id t) /\
  (mask_token t <> None -> pad_token t <> None -> t' = t).
Proof.
  destruct t as [v [m|] [p|]]; intros [Hm Hp]; simpl in Hm, Hp;
    unfold ensure_special_tokens, mask_token_id, pad_token_id, token_id;
    simpl.
  - pose proof (Hm m eq_refl). pose proof (Hp p eq_refl).
    repeat split; try discriminate; try congruence;
      now apply index_from_In.
  - pose proof (Hm m eq_refl) as Him.
    repeat split; try discriminate; try congruence.
    + apply index_from_In. now apply add_token_keeps.
    + apply index_from_In, add_token_In.
    + apply add_token_In.
    + intros _. now apply add_token_index.
  - pose proof (Hp p eq_refl) as Hip.
    repeat split; try discriminate; try congruence.
    + apply index_from_In, add_token_In.
    + apply index_from_In. now apply add_token_keeps.
    + apply add_token_In.
    + intros _. now apply add_token_index.
  - repeat split; try discriminate; try congruence.
    + apply index_from_In, add_token_keeps, add_token_In.
    + apply index_from_In, add_token_In.
    + apply add_token_keeps, add_token_In.
    + apply add_token_In.
Qed.

Lemma assemble_tokenizer (tokenized : DatasetDict) (t : Tokenizer)
    (train : PYTORCH_Dataset) (val : option PYTORCH_Dataset)
    (t' : Tokenizer) :
  assemble tokenized t = Ok (train, val, t') -> t' = t.
Proof.
  unfold assemble.
  destruct (dict_getitem tokenized "train"); simpl; [|discriminate].
  destruct (dict_contains tokenized "validation"); simpl.
  - destruct (dict_getitem tokenized "validation"); simpl; [|discriminate].
    congruence.
  - congruence.
Qed.

(** What a successful run went through: the provider's handle, the raw
    dataset, the resolved column, the argument of the map and its result. *)
Lemma prepare_dataset_ok_inv
    (W : World) (dataset_name tokenizer_name : string) (max_length : Z)
    (cache_dir : option string) (num_proc : Z) (text_column : option string)
    (result : PYTORCH_Dataset * option PYTORCH_Dataset * Tokenizer) :
  prepare_dataset W dataset_name tokenizer_name max_length cache_dir
                  num_proc text_column = Ok result ->
  exists tokenizer dataset col remove_columns tokenized,
    from_pretrained W tokenizer_name = Ok tokenizer /\
    load_dataset W dataset_name cache_dir = Ok dataset /\
    resolve_text_column dataset text_column = Ok col /\
    remove_columns_arg dataset col = Ok remove_columns /\
    dataset_map W
      (tokenize_function W (ensure_special_tokens tokenizer) col max_length)
      num_proc remove_columns dataset = Ok tokenized /\
    assemble tokenized (ensure_special_tokens tokenizer) = Ok result.
Proof.
  unfold prepare_dataset, prepare_dataset_body, load_raw_dataset, try_except.
  destruct (from_pretrained W tokenizer_name) as [tokenizer|] eqn:Htok;
    simpl; [|discriminate].
  destruct (load_dataset W dataset_name cache_dir) as [dataset|] eqn:Hload;
    simpl; [|discriminate].
  destruct (resolve_text_column dataset text_column) as [col|] eqn:Hcol;
    simpl; [|discriminate].
  destruct (remove_columns_arg dataset col) as [remove_columns|] eqn:Hrc;
    simpl; [|discriminate].
  destruct (dataset_map W _ num_proc remove_columns dataset)
    as [tokenized|] eqn:Hmap; simpl; [|discriminate].
  destruct (assemble tokenized _) as [r|] eqn:Hasm; [|discriminate].
  intros H. injection H as <-.
  exists tokenizer, dataset, col, remove_columns, tokenized.
  repeat split; try reflexivity; assumption.
Qed.

(** C6: the tokenizer a successful preparation returns is the provider's
    handle after provisioning. Its mask-token id and pad-token id are not
    [None]; a missing mask token was registered as "[MASK]", a missing pad
    token as "[PAD]"; the id of a token the handle already had is the one
    it had, and a handle that had both is returned as it was. *)
Theorem provisioning_gives_mask_and_pad_ids
    (W : World) (dataset_name tokenizer_name : string) (max_length : Z)
    (cache_dir : option string) (num_proc : Z) (text_column : option string)
    (provided : Tokenizer)
    (train : PYTORCH_Dataset) (val : option PYTORCH_Dataset)
    (returned : Tokenizer) :
  from_pretrained W tokenizer_name = Ok provided ->
  special_tokens_in_vocab provided ->
  prepare_dataset W dataset_name tokenizer_name max_length cache_dir
                  num_proc text_column = Ok (train, val, returned) ->
  returned = ensure_special_tokens provided /\
  mask_token_id returned <> None /\ pad_token_id returned <> None /\
  (mask_token provided = None ->
   mask_token returned = Some "[MASK]" /\ In "[MASK]" (vocab returned)) /\
  (pad_token provided = None ->
   pad_token returned = Some "[PAD]" /\ In "[PAD]" (vocab returned)) /\
  (mask_token provided <> None ->
   mask_token_id returned = mask_token_id provided) /\
  (pad_token provided <> None ->
   pad_token_id returned = pad_token_id provided) /\
  (mask_token provided <> None -> pad_token provided <> None ->
   returned = provided).
Proof.
  intros Hprov Hwf Hok.
  apply prepare_dataset_ok_inv in Hok
    as (t & ds & col & rc & tokenized & Ht & _ & _ & _ & _ & Hasm).
  rewrite Hprov in Ht. injection Ht as <-.
  apply assemble_tokenizer in Hasm. subst returned.
  split; [reflexivity|]. now apply ensure_special_tokens_spec.
Qed.

Lemma bare_tokenizer_well_formed :
  special_tokens_in_vocab Reference.bare_tokenizer.
Proof. split; intros tok H; discriminate H. Qed.

Lemma provisioning_gives_mask_and_pad_ids_witness :
  let provided := Reference.bare_tokenizer in
  let returned := ensure_special_tokens Reference.bare_tokenizer in
  returned = ensure_special_tokens provided /\
  mask_token_id returned <> None /\ pad_token_id returned <> None /\
  (mask_token provided = None ->
   mask_token returned = Some "[MASK]" /\ In "[MASK]" (vocab returned)) /\
  (pad_token provided = None ->
   pad_token returned = Some "[PAD]" /\ In "[PAD]" (vocab returned)) /\
  (mask_token provided <> None ->
   mask_token_id returned = mask_token_id provided) /\
  (pad_token provided <> None ->
   pad_token_id returned = pad_token_id provided) /\
  (mask_token provided <> None -> pad_token provided <> None ->
   returned = provided).
Proof.
  intros provided returned.
  eapply (provisioning_gives_mask_and_pad_ids
            (Reference.world Reference.table) "two_texts" "gpt2" 4%Z None 4%Z
            None Reference.bare_tokenizer).
  - reflexivity.
  - exact bare_tokenizer_well_formed.
  - vm_compute. reflexivity.
Defined.

(** ** The load of the raw dataset (C7) *)

(** C7: when the load of the raw dataset fails, the failure is caught at
    the call site and raised again as a [DatasetPreparationError]; the
    message the caller sees contains the dataset identifier and the text
    of the original failure. *)
Theorem load_failure_names_dataset_and_cause
    (W : World) (dataset_name tokenizer_name : string) (max_length : Z)
    (cache_dir : option string) (num_proc : Z) (text_column : option string)
    (tokenizer : Tokenizer) (e : PyExc) :
  from_pretrained W tokenizer_name = Ok tokenizer ->
  load_dataset W dataset_name cache_dir = Raise e ->
  load_raw_dataset W dataset_name cache_dir
  = Raise (DPE ("Failed to load dataset " ++ dataset_name ++ ": "
                ++ exc_str e))
  /\ exists message,
       prepare_dataset W dataset_name tokenizer_name max_length cache_dir
                       num_proc text_column = Raise (DPE message) /\
       Contains dataset_name message /\
       Contains (exc_str e) message.
Proof.
  intros Htok Hload. split.
  - unfold load_raw_dataset. now rewrite Hload.
  - exists ("Dataset preparation failed: "
            ++ "Failed to load dataset " ++ dataset_name ++ ": "
            ++ exc_str e).
    split; [|split].
    + unfold prepare_dataset, prepare_dataset_body, load_raw_dataset.
      rewrite Htok, Hload. reflexivity.
    + apply contains_after, contains_after, contains_here.
    + apply contains_after, contains_after, contains_after, contains_after,
        contains_end.
Qed.

Lemma load_failure_names_dataset_and_cause_witness :
  load_raw_dataset (Reference.world Reference.table) "nope" None
  = Raise (DPE ("Failed to load dataset " ++ "nope" ++ ": "
                ++ "Couldn't find a dataset script at nope"))
  /\ exists message,
       prepare_dataset (Reference.world Reference.table) "nope" "gpt2" 4%Z
                       None 4%Z None = Raise (DPE message) /\
       Contains "nope" message /\
       Contains "Couldn't find a dataset script at nope" message.
Proof.
  apply (load_failure_names_dataset_and_cause
           (Reference.world Reference.table) "nope" "gpt2" 4%Z None 4%Z None
           Reference.bare_tokenizer
           (mkExc (OtherError "FileNotFoundError")
                  "Couldn't find a dataset script at nope")).
  - reflexivity.
  - reflexivity.
Defined.

(** ** Assembly (C8) *)

Lemma dict_contains_get {V : Type} (d : Dict V) (k : string) :
  dict_contains d k = true <-> exists v, dict_get d k = Some v.
Proof.
  unfold dict_contains. destruct (dict_get d k) as [v|]; split.
  - intros _. now exists v.
  - reflexivity.
  - discriminate.
  - intros (v & H). discriminate H.
Qed.

Lemma assemble_spec (tokenized : DatasetDict) (t : Tokenizer)
    (train_dataset : PYTORCH_Dataset) (val_dataset : option PYTORCH_Dataset)
    (t' : Tokenizer) :
  assemble tokenized t = Ok (train_dataset, val_dataset, t') ->
  exists train,
    dict_get tokenized "train" = Some train /\
    train_dataset = mkPYTORCH_Dataset train (mask_token_id t) (pad_token_id t)
    /\ val_dataset =
       match dict_get tokenized "validation" with
       | Some validation =>
           Some (mkPYTORCH_Dataset validation (mask_token_id t)
                                   (pad_token_id t))
       | None => None
       end.
Proof.
  unfold assemble, dict_getitem, dict_contains.
  destruct (dict_get tokenized "train") as [train|]; simpl; [|discriminate].
  destruct (dict_get tokenized "validation") as [validation|]; simpl;
    intros H; injection H as <- <- <-; exists train; repeat split.
Qed.

Lemma assemble_ok (tokenized : DatasetDict) (t : Tokenizer)
    (train : Dataset) :
  dict_get tokenized "train" = Some train ->
  assemble tokenized t
  = Ok (mkPYTORCH_Dataset train (mask_token_id t) (pad_token_id t),
        match dict_get tokenized "validation" with
        | Some validation =>
            Some (mkPYTORCH_Dataset validation (mask_token_id t)
                                    (pad_token_id t))
        | None => None
        end,
        t).
Proof.
  intros Htrain. unfold assemble, dict_getitem, dict_contains.
  rewrite Htrain. simpl.
  destruct (dict_get tokenized "validation"); reflexivity.
Qed.

(** A run whose stages succeed up to the map ends in the assembly. *)
Lemma prepare_dataset_stages
    (W : World) (dataset_name tokenizer_name : string) (max_length : Z)
    (cache_dir : option string) (num_proc : Z) (text_column : option string)
    (provided : Tokenizer) (dataset : DatasetDict) (col : string)
    (remove_columns : option (list string)) (tokenized : DatasetDict) :
  from_pretrained W tokenizer_name = Ok provided ->
  load_dataset W dataset_name cache_dir = Ok dataset ->
  resolve_text_column dataset text_column = Ok col ->
  remove_columns_arg dataset col = Ok remove_columns ->
  dataset_map W
    (tokenize_function W (ensure_special_tokens provided) col max_length)
    num_proc remove_columns dataset = Ok tokenized ->
  prepare_dataset W dataset_name tokenizer_name max_length cache_dir
                  num_proc text_column
  = try_except (assemble tokenized (ensure_special_tokens provided))
      (fun e => DPE ("Dataset preparation failed: " ++ exc_str e)).
Proof.
  intros Htok Hload Hcol Hrc Hmap.
  unfold prepare_dataset, prepare_dataset_body, load_raw_dataset.
  rewrite Htok. simpl. rewrite Hload. simpl. rewrite Hcol. simpl.
  rewrite Hrc. simpl. rewrite Hmap. reflexivity.
Qed.

(** C8: once the map has returned the tokenized dataset, the preparation
    returns. If the tokenized dataset has a split "validation", the
    second value is the wrapper of that split, built with the same
    mask-token id and pad-token id as the wrapper of the train split; if
    it has none, the second value is [None], not a wrapper. *)
Theorem validation_wrapped_or_absent
    (W : World) (dataset_name tokenizer_name : string) (max_length : Z)
    (cache_dir : option string) (num_proc : Z) (text_column : option string)
    (provided : Tokenizer) (dataset : DatasetDict) (col : string)
    (remove_columns : option (list string)) (tokenized : DatasetDict)
    (train : Dataset) :
  from_pretrained W tokenizer_name = Ok provided ->
  load_dataset W dataset_name cache_dir = Ok dataset ->
  resolve_text_column dataset text_column = Ok col ->
  remove_columns_arg dataset col = Ok remove_columns ->
  dataset_map W
    (tokenize_function W (ensure_special_tokens provided) col max_length)
    num_proc remove_columns dataset = Ok tokenized ->
  dict_get tokenized "train" = Some train ->
  (dict_get tokenized "validation" = None ->
   prepare_dataset W dataset_name tokenizer_name max_length cache_dir
                   num_proc text_column
   = Ok (mkPYTORCH_Dataset train
           (mask_token_id (ensure_special_tokens provided))
           (pad_token_id (ensure_special_tokens provided)),
         None,
         ensure_special_tokens provided)) /\
  (forall validation,
     dict_get tokenized "validation" = Some validation ->
     prepare_dataset W dataset_name tokenizer_name max_length cache_dir
                     num_proc text_column
     = Ok (mkPYTORCH_Dataset train
             (mask_token_id (ensure_special_tokens provided))
             (pad_token_id (ensure_special_tokens provided)),
           Some (mkPYTORCH_Dataset validation
                   (mask_token_id (ensure_special_tokens provided))
                   (pad_token_id (ensure_special_tokens provided))),
           ensure_special_tokens provided)).
Proof.
  intros Htok Hload Hcol Hrc Hmap Htrain.
  rewrite (prepare_dataset_stages _ _ _ _ _ _ _ _ _ _ _ _
             Htok Hload Hcol Hrc Hmap).
  rewrite (assemble_ok _ _ _ Htrain). simpl.
  split.
  - now intros ->.
  - now intros validation ->.
Qed.

(** Two runs: a dataset without a validation split, and one with. *)
Lemma validation_wrapped_or_absent_witness :
  prepare_dataset (Reference.world Reference.table) "two_texts" "gpt2" 4%Z
                  None 4%Z None
  = Ok (mkPYTORCH_Dataset Reference.two_texts_encoded (Some 3%Z) (Some 4%Z),
        None,
        Reference.provisioned_tokenizer)
  /\
  prepare_dataset (Reference.world Reference.table) "with_validation" "bert"
                  4%Z None 4%Z None
  = Ok (Reference.with_validation_train,
        Some Reference.with_validation_val,
        Reference.full_tokenizer).
Proof.
  split.
  - apply (proj1 (validation_wrapped_or_absent
                    (Reference.world Reference.table) "two_texts" "gpt2" 4%Z
                    None 4%Z None Reference.bare_tokenizer
                    Reference.two_texts "text" (Some ["text"])
                    [("train", Reference.two_texts_encoded)]
                    Reference.two_texts_encoded
                    eq_refl eq_refl eq_refl eq_refl eq_refl eq_refl)).
    reflexivity.
  - apply (proj2 (validation_wrapped_or_absent
                    (Reference.world Reference.table) "with_validation"
                    "bert" 4%Z None 4%Z None Reference.full_tokenizer
                    Reference.with_validation "text" (Some ["text"])
                    [("train", Reference.encoded 1 97);
                     ("validation", Reference.encoded 0 98)]
                    (Reference.encoded 1 97)
                    eq_refl eq_refl eq_refl eq_refl eq_refl eq_refl)
                 (Reference.encoded 0 98)).
    reflexivity.
Defined.

(** A run on a dataset without a validation split: two records, padded
    to [max_length = 4], and [None] as the second value. *)
Example two_texts_run :
  prepare_dataset (Reference.world Reference.table) "two_texts" "gpt2" 4%Z
                  None 4%Z None
  = Ok (mkPYTORCH_Dataset
          (mkDataset ["input_ids"; "attention_mask"]
             [[("input_ids", PyList [PyInt 97; PyInt 4; PyInt 4; PyInt 4]);
               ("attention_mask", PyList [PyInt 1; PyInt 0; PyInt 0; PyInt 0])];
              [("input_ids", PyList [PyInt 98; PyInt 98; PyInt 4; PyInt 4]);
               ("attention_mask",
                PyList [PyInt 1; PyInt 1; PyInt 0; PyInt 0])]])
          (Some 3%Z) (Some 4%Z),
        None,
        mkTokenizer ["a"; "b"; "c"; "[MASK]"; "[PAD]"]
                    (Some "[MASK]") (Some "[PAD]")).
Proof. vm_compute. reflexivity. Qed.

(** ** A dataset without a train split (C10) *)

(** C10: when the raw dataset loads but has no split "train",
    [prepare_dataset] raises a [DatasetPreparationError] and returns
    nothing, with or without a supplied [text_column]: both paths index
    the split, the lookup raises [KeyError('train')], and the outer
    boundary turns it into the error the caller sees. *)
Theorem missing_train_split_raises
    (W : World) (dataset_name tokenizer_name : string) (max_length : Z)
    (cache_dir : option string) (num_proc : Z) (text_column : option string)
    (dataset : DatasetDict) :
  load_dataset W dataset_name cache_dir = Ok dataset ->
  dict_get dataset "train" = None ->
  (exists message,
     prepare_dataset W dataset_name tokenizer_name max_length cache_dir
                     num_proc text_column = Raise (DPE message)) /\
  (forall tokenizer,
     from_pretrained W tokenizer_name = Ok tokenizer ->
     prepare_dataset_body W dataset_name tokenizer_name max_length cache_dir
                          num_proc text_column = Raise (key_error "train") /\
     prepare_dataset W dataset_name tokenizer_name max_length cache_dir
                     num_proc text_column
     = Raise (DPE "Dataset preparation failed: 'train'")).
Proof.
  intros Hload Htrain.
  assert (Hbody : forall tokenizer,
             from_pretrained W tokenizer_name = Ok tokenizer ->
             prepare_dataset_body W dataset_name tokenizer_name max_length
                                  cache_dir num_proc text_column
             = Raise (key_error "train")).
  { intros tokenizer Htok.
    unfold prepare_dataset_body, load_raw_dataset.
    rewrite Htok, Hload. simpl.
    destruct text_column as [col|]; simpl.
    - unfold remove_columns_arg.
      now rewrite (dict_getitem_none _ _ Htrain).
    - unfold detect_text_column.
      now rewrite (dict_getitem_none _ _ Htrain). }
  split.
  - destruct (from_pretrained W tokenizer_name) as [t|e] eqn:Htok.
    + unfold prepare_dataset. rewrite (Hbody t eq_refl).
      eexists. reflexivity.
    + unfold prepare_dataset, prepare_dataset_body. rewrite Htok.
      eexists. reflexivity.
  - intros tokenizer Htok. split; [now apply (Hbody tokenizer)|].
    unfold prepare_dataset. now rewrite (Hbody tokenizer Htok).
Qed.

Lemma missing_train_split_raises_witness :
  (exists message,
     prepare_dataset (Reference.world Reference.table) "test_only" "gpt2"
                     4%Z None 4%Z (Some "text") = Raise (DPE message)) /\
  (forall tokenizer,
     from_pretrained (Reference.world Reference.table) "gpt2" = Ok tokenizer ->
     prepare_dataset_body (Reference.world Reference.table) "test_only"
                          "gpt2" 4%Z None 4%Z (Some "text")
     = Raise (key_error "train") /\
     prepare_dataset (Reference.world Reference.table) "test_only" "gpt2"
                     4%Z None 4%Z (Some "text")
     = Raise (DPE "Dataset preparation failed: 'train'")).
Proof.
  apply (missing_train_split_raises
           (Reference.world Reference.table) "test_only" "gpt2" 4%Z None 4%Z
           (Some "text") Reference.test_only).
  - reflexivity.
  - reflexivity.
Defined.

(** ** The reference map meets the two contracts *)

Lemma dict_keys_split_batch (s : Dataset) :
  dict_keys (Reference.split_batch s) = column_names s.
Proof.
  unfold dict_keys, Reference.split_batch. rewrite map_map. simpl.
  apply map_id.
Qed.

Lemma map_splits_raises (function : Batch -> Result Batch) (e : PyExc)
    (d : DatasetDict) :
  (exists name s r, In (name, s) d /\ In r (rows s)) ->
  (forall name s, In (name, s) d ->
     function (Reference.split_batch s) = Raise e) ->
  Reference.map_splits function None d = Raise e.
Proof.
  induction d as [|[name s] rest IH]; intros (n & s0 & r & Hin & Hr) Hf.
  - destruct Hin.
  - simpl. unfold Reference.map_split. simpl.
    destruct (rows s) as [|r1 rs] eqn:Hrows.
    + simpl. rewrite IH; [reflexivity | | ].
      * destruct Hin as [E|Hin].
        -- injection E as _ <-. rewrite Hrows in Hr. destruct Hr.
        -- now exists n, s0, r.
      * intros n' s' H'. apply (Hf n'). now right.
    + rewrite (Hf name s (or_introl eq_refl)). reflexivity.
Qed.

Lemma reference_world_runs_function (table : Dict DatasetDict) :
  map_runs_function (Reference.world table).
Proof.
  intros function num_proc dataset e Hrows Hfun. simpl.
  unfold Reference.hf_map. apply map_splits_raises; [assumption|].
  intros name s Hin. apply Hfun. intros k Hk.
  rewrite dict_keys_split_batch in Hk. now exists name, s.
Qed.







(** ** A supplied text column (C5) *)

Lemma dict_get_In {V : Type} (d : Dict V) (k : string) (v : V) :
  dict_get d k = Some v -> In (k, v) d.
Proof.
  induction d as [|[k' v'] rest IH]; simpl; intros H; [discriminate|].
  destruct (String.eqb_spec k k') as [->|Hne].
  - injection H as <-. now left.
  - right. now apply IH.
Qed.

Lemma dict_get_not_key {V : Type} (d : Dict V) (k : string) :
  ~ In k (dict_keys d) -> dict_get d k = None.
Proof.
  induction d as [|[k' v] rest IH]; simpl; intros H; [reflexivity|].
  destruct (String.eqb_spec k k') as [->|Hne].
  - destruct H. now left.
  - apply IH. intros Hin. apply H. now right.
Qed.

Lemma tokenize_function_missing_column (W : World) (tokenizer : Tokenizer)
    (col : string) (max_length : Z) (examples : Batch) :
  ~ In col (dict_keys examples) ->
  tokenize_function W tokenizer col max_length examples
  = Raise (DPE ("Tokenization failed: " ++ py_repr col)).
Proof.
  intros H. unfold tokenize_function.
  now rewrite (dict_getitem_none _ _ (dict_get_not_key _ _ H)).
Qed.

(** C5: a supplied [text_column] is taken as it is, for every dataset,
    without running the detection and without looking at the columns.
    When the name is a column of no split, the train split exists and the
    dataset has a record, the map runs the tokenize function, whose
    lookup of the column fails; the caller sees the
    [DatasetPreparationError] of the tokenize step, not the one of the
    detection. *)
Theorem supplied_column_is_used_unchecked
    (W : World) (dataset_name tokenizer_name : string) (max_length : Z)
    (cache_dir : option string) (num_proc : Z) (col : string)
    (tokenizer : Tokenizer) (dataset : DatasetDict) (train : Dataset) :
  map_runs_function W ->
  from_pretrained W tokenizer_name = Ok tokenizer ->
  load_dataset W dataset_name cache_dir = Ok dataset ->
  dict_get dataset "train" = Some train ->
  (forall name s, In (name, s) dataset -> ~ In col (column_names s)) ->
  (exists name s r, In (name, s) dataset /\ In r (rows s)) ->
  (forall any_dataset, resolve_text_column any_dataset (Some col) = Ok col) /\
  remove_columns_arg dataset col = Ok None /\
  prepare_dataset_body W dataset_name tokenizer_name max_length cache_dir
                       num_proc (Some col)
  = Raise (DPE ("Tokenization failed: " ++ py_repr col)) /\
  prepare_dataset W dataset_name tokenizer_name max_length cache_dir
                  num_proc (Some col)
  = Raise (DPE ("Dataset preparation failed: Tokenization failed: "
                ++ py_repr col)).
Proof.
  intros Hmap Htok Hload Htrain Habsent Hrows.
  assert (Hrc : remove_columns_arg dataset col = Ok None).
  { unfold remove_columns_arg.
    rewrite (dict_getitem_some _ _ _ Htrain). simpl.
    pose proof (dict_get_In _ _ _ Htrain) as Hin.
    apply Habsent in Hin. apply name_in_not_In in Hin. now rewrite Hin. }
  assert (Hbody :
    prepare_dataset_body W dataset_name tokenizer_name max_length cache_dir
                         num_proc (Some col)
    = Raise (DPE ("Tokenization failed: " ++ py_repr col))).
  { unfold prepare_dataset_body, load_raw_dataset.
    rewrite Htok, Hload. simpl. rewrite Hrc. simpl.
    rewrite (Hmap _ num_proc dataset
               (DPE ("Tokenization failed: " ++ py_repr col)));
      [reflexivity | assumption | ].
    intros b Hkeys. apply tokenize_function_missing_column.
    intros Hin. destruct (Hkeys col Hin) as (name & s & Hs & Hc).
    now apply (Habsent name s). }
  repeat split; try assumption.
  unfold prepare_dataset. now rewrite Hbody.
Qed.

Lemma supplied_column_is_used_unchecked_witness :
  (forall any_dataset, resolve_text_column any_dataset (Some "body")
                       = Ok "body") /\
  remove_columns_arg Reference.two_texts "body" = Ok None /\
  prepare_dataset_body (Reference.world Reference.table) "two_texts" "gpt2"
                       4%Z None 4%Z (Some "body")
  = Raise (DPE ("Tokenization failed: " ++ py_repr "body")) /\
  prepare_dataset (Reference.world Reference.table) "two_texts" "gpt2" 4%Z
                  None 4%Z (Some "body")
  = Raise (DPE ("Dataset preparation failed: Tokenization failed: "
                ++ py_repr "body")).
Proof.
  apply (supplied_column_is_used_unchecked
           (Reference.world Reference.table) "two_texts" "gpt2" 4%Z None 4%Z
           "body" Reference.bare_tokenizer Reference.two_texts
           (mkDataset ["text"]
                      [[("text", PyStr "a")]; [("text", PyStr "bb")]])).
  - apply reference_world_runs_function.
  - reflexivity.
  - reflexivity.
  - reflexivity.
  - intros name s [E|[]] Hin. injection E as _ <-. simpl in Hin.
    destruct Hin as [E|[]]. discriminate E.
  - exists "train",
      (mkDataset ["text"] [[("text", PyStr "a")]; [("text", PyStr "bb")]]),
      [("text", PyStr "a")].
    split; now left.
Defined.

(** ** Removal of the text column (C9) *)

Lemma remove_columns_arg_spec (dataset : DatasetDict) (col : string)
    (remove_columns : option (list string)) :
  remove_columns_arg dataset col = Ok remove_columns ->
  exists train,
    dict_get dataset "train" = Some train /\
    (remove_columns = Some [col] /\ In col (column_names train) \/
     remove_columns = None /\ ~ In col (column_names train)).
Proof.
  unfold remove_columns_arg, dict_getitem.
  destruct (dict_get dataset "train") as [train|]; simpl; [|discriminate].
  intros H. injection H as <-. exists train. split; [reflexivity|].
  destruct (name_in col (column_names train)) eqn:E.
  - left. split; [reflexivity | now apply name_in_In].
  - right. split; [reflexivity | now apply name_in_not_In].
Qed.



(** * Further properties of the preparation *)

(** ** Failures before the dataset is touched *)

(** X1: when the tokenizer provider fails, the caller sees that failure
    under the outer prefix, whatever the dataset provider, the map and
    the other arguments are: nothing after line 46 runs. *)
Theorem tokenizer_failure_preempts_everything
    (W : World) (dataset_name tokenizer_name : string) (max_length : Z)
    (cache_dir : option string) (num_proc : Z) (text_column : option string)
    (e : PyExc) :
  from_pretrained W tokenizer_name = Raise e ->
  prepare_dataset W dataset_name tokenizer_name max_length cache_dir
                  num_proc text_column
  = Raise (DPE ("Dataset preparation failed: " ++ exc_str e)).
Proof.
  intros Htok. unfold prepare_dataset, prepare_dataset_body.
  now rewrite Htok.
Qed.

Lemma tokenizer_failure_preempts_everything_witness :
  prepare_dataset (Reference.world Reference.table) "nope" "t5" 4%Z None
                  4%Z (Some "body")
  = Raise (DPE ("Dataset preparation failed: "
                ++ "Can't load tokenizer for 't5'")).
Proof.
  apply (tokenizer_failure_preempts_everything
           (Reference.world Reference.table) "nope" "t5" 4%Z None 4%Z
           (Some "body")
           (mkExc (OtherError "OSError") "Can't load tokenizer for 't5'")).
  reflexivity.
Defined.

(** ** Detection: what it reads and what it returns *)

Lemma first_string_column_same_record (train train' : Dataset)
    (cols : list string) :
  dataset_getitem0 train = dataset_getitem0 train' ->
  first_string_column train cols = first_string_column train' cols.
Proof.
  intros H. induction cols as [|c cols IH]; simpl; [reflexivity|].
  rewrite H. destruct (dataset_getitem0 train') as [record|]; simpl;
    [|reflexivity].
  destruct (dict_getitem record c) as [v|]; simpl; [|reflexivity].
  now rewrite IH.
Qed.

Lemma dataset_getitem0_head (train train' : Dataset) :
  hd_error (rows train) = hd_error (rows train') ->
  dataset_getitem0 train = dataset_getitem0 train'.
Proof.
  unfold dataset_getitem0.
  destruct (rows train), (rows train'); simpl; intros H;
    try discriminate H; try reflexivity.
  now injection H as <-.
Qed.

(** X2: detection reads the column names of the train split and its
    first record, and nothing else. Two datasets whose train splits agree
    on both get the same outcome, whatever their other records and their
    other splits hold. *)
Theorem detection_reads_columns_and_first_record
    (dataset dataset' : DatasetDict) (train train' : Dataset) :
  dict_get dataset "train" = Some train ->
  dict_get dataset' "train" = Some train' ->
  column_names train = column_names train' ->
  hd_error (rows train) = hd_error (rows train') ->
  resolve_text_column dataset None = resolve_text_column dataset' None.
Proof.
  intros Ht Ht' Hcols Hhead.
  unfold resolve_text_column, detect_text_column.
  rewrite (dict_getitem_some _ _ _ Ht), (dict_getitem_some _ _ _ Ht').
  simpl. rewrite <- Hcols.
  destruct (first_candidate (column_names train)); [reflexivity|].
  now rewrite (first_string_column_same_record train train' _
                 (dataset_getitem0_head _ _ Hhead)).
Qed.

Lemma detection_reads_columns_and_first_record_witness :
  resolve_text_column
    [("train", mkDataset ["n"; "body"]
                 [[("n", PyInt 1); ("body", PyStr "a")];
                  [("n", PyInt 2); ("body", PyInt 0)]]);
     ("validation", mkDataset ["other"] [])] None
  = resolve_text_column
      [("train", mkDataset ["n"; "body"]
                   [[("n", PyInt 1); ("body", PyStr "a")]])] None.
Proof.
  apply (detection_reads_columns_and_first_record
           _ _
           (mkDataset ["n"; "body"]
              [[("n", PyInt 1); ("body", PyStr "a")];
               [("n", PyInt 2); ("body", PyInt 0)]])
           (mkDataset ["n"; "body"]
              [[("n", PyInt 1); ("body", PyStr "a")]]));
    reflexivity.
Defined.

Lemma first_string_column_sound (train : Dataset) (cols : list string)
    (col : string) :
  first_string_column train cols = Ok (Some col) ->
  In col cols /\
  exists record s,
    dataset_getitem0 train = Ok record /\
    dict_get record col = Some (PyStr s).
Proof.
  induction cols as [|c cols IH]; simpl; intros H; [discriminate H|].
  destruct (dataset_getitem0 train) as [record|] eqn:Hrec; simpl in H;
    [|discriminate H].
  unfold dict_getitem in H.
  destruct (dict_get record c) as [v|] eqn:Hv; simpl in H; [|discriminate H].
  destruct v as [| | |s|]; simpl in H;
    try (destruct (IH H) as (Hin & Hex); split; [now right | exact Hex]).
  injection H as <-. split; [now left|]. now exists record, s.
Qed.

(** X3: a column that detection returns is a column of the train split;
    it is a name of the candidate list or its value in the first train
    record is a string; and the preparation then always asks the map to
    remove it. *)
Theorem detected_column_is_a_train_column
    (dataset : DatasetDict) (col : string) :
  resolve_text_column dataset None = Ok col ->
  exists train,
    dict_get dataset "train" = Some train /\
    In col (column_names train) /\
    (In col possible_columns \/
     exists record s,
       dataset_getitem0 train = Ok record /\
       dict_get record col = Some (PyStr s)) /\
    remove_columns_arg dataset col = Ok (Some [col]).
Proof.
  unfold resolve_text_column, detect_text_column, remove_columns_arg,
    dict_getitem.
  destruct (dict_get dataset "train") as [train|]; simpl; [|discriminate].
  intros H. exists train. split; [reflexivity|].
  assert (Hin : In col (column_names train) /\
                (In col possible_columns \/
                 exists record s,
                   dataset_getitem0 train = Ok record /\
                   dict_get record col = Some (PyStr s))).
  { destruct (first_candidate (column_names train)) as [c|] eqn:Hc.
    - injection H as <-. unfold first_candidate in Hc.
      apply find_some in Hc as [Hp Hn]. apply name_in_In in Hn.
      split; [assumption | now left].
    - destruct (first_string_column train (column_names train))
        as [[c|]|] eqn:Hs; simpl in H; try discriminate H.
      injection H as <-.
      apply first_string_column_sound in Hs as [Hin Hex].
      split; [assumption | now right]. }
  destruct Hin as [Hin Hwhy]. repeat split; try assumption.
  apply name_in_In in Hin. now rewrite Hin.
Qed.

Lemma detected_column_is_a_train_column_witness :
  exists train,
    dict_get Reference.foo_bar "train" = Some train /\
    In "foo" (column_names train) /\
    (In "foo" possible_columns \/
     exists record s,
       dataset_getitem0 train = Ok record /\
       dict_get record "foo" = Some (PyStr s)) /\
    remove_columns_arg Reference.foo_bar "foo" = Ok (Some ["foo"]).
Proof.
  apply (detected_column_is_a_train_column Reference.foo_bar "foo").
  reflexivity.
Defined.

(** X4: a train split without records. With no candidate name among its
    columns, detection fails with the index error of [dataset['train'][0]]
    as soon as there is a column to look at, and with its own "Could not
    detect" message only when the split has no column at all. *)
Theorem empty_train_split_fails_on_first_record
    (W : World) (dataset_name tokenizer_name : string) (max_length : Z)
    (cache_dir : option string) (num_proc : Z)
    (tokenizer : Tokenizer) (dataset : DatasetDict) (train : Dataset)
    (e : PyExc) :
  from_pretrained W tokenizer_name = Ok tokenizer ->
  load_dataset W dataset_name cache_dir = Ok dataset ->
  dict_get dataset "train" = Some train ->
  (forall c, In c possible_columns -> ~ In c (column_names train)) ->
  dataset_getitem0 train = Raise e ->
  (column_names train <> [] ->
   prepare_dataset W dataset_name tokenizer_name max_length cache_dir
                   num_proc None
   = Raise (DPE ("Dataset preparation failed: " ++ exc_str e))) /\
  (column_names train = [] ->
   prepare_dataset W dataset_name tokenizer_name max_length cache_dir
                   num_proc None
   = Raise (DPE ("Dataset preparation failed: "
                 ++ "Could not detect text column. Available columns: []"))).
Proof.
  intros Htok Hload Htrain Hnone Hrec.
  unfold prepare_dataset, prepare_dataset_body, load_raw_dataset.
  rewrite Htok, Hload. simpl. unfold detect_text_column.
  rewrite (dict_getitem_some _ _ _ Htrain). simpl.
  rewrite (first_candidate_none _ Hnone).
  destruct (column_names train) as [|c cols]; split; intros H;
    try congruence; try reflexivity.
  simpl. now rewrite Hrec.
Qed.

Lemma empty_train_split_fails_on_first_record_witness :
  (["id"; "body"] <> [] ->
   prepare_dataset (Reference.world Reference.more_table) "empty_train"
                   "gpt2" 4%Z None 4%Z None
   = Raise (DPE ("Dataset preparation failed: "
                 ++ "Invalid key: 0 is out of bounds for size 0"))) /\
  (["id"; "body"] = [] ->
   prepare_dataset (Reference.world Reference.more_table) "empty_train"
                   "gpt2" 4%Z None 4%Z None
   = Raise (DPE ("Dataset preparation failed: "
                 ++ "Could not detect text column. Available columns: []"))).
Proof.
  apply (empty_train_split_fails_on_first_record
           (Reference.world Reference.more_table) "empty_train" "gpt2" 4%Z
           None 4%Z Reference.bare_tokenizer Reference.empty_train
           (mkDataset ["id"; "body"] [])
           (mkExc IndexError "Invalid key: 0 is out of bounds for size 0")).
  - reflexivity.
  - reflexivity.
  - reflexivity.
  - intros c Hc Hin. simpl in Hc, Hin.
    repeat (destruct Hc as [<-|Hc]; [now repeat destruct Hin as [Hin|Hin]|]).
    exact Hc.
  - reflexivity.
Defined.

(** X5: supplying the column that detection would pick changes nothing:
    the two calls have the same outcome, result or failure. *)
Theorem supplying_detected_column_changes_nothing
    (W : World) (dataset_name tokenizer_name : string) (max_length : Z)
    (cache_dir : option string) (num_proc : Z) (col : string) :
  (forall dataset,
     load_dataset W dataset_name cache_dir = Ok dataset ->
     resolve_text_column dataset None = Ok col) ->
  prepare_dataset W dataset_name tokenizer_name max_length cache_dir
                  num_proc (Some col)
  = prepare_dataset W dataset_name tokenizer_name max_length cache_dir
                    num_proc None.
Proof.
  intros H. unfold prepare_dataset, prepare_dataset_body, load_raw_dataset.
  destruct (from_pretrained W tokenizer_name) as [t|]; simpl; [|reflexivity].
  destruct (load_dataset W dataset_name cache_dir) as [dataset|] eqn:Hload;
    simpl; [|reflexivity].
  pose proof (H dataset eq_refl) as Hd. simpl in Hd. now rewrite Hd.
Qed.

Lemma supplying_detected_column_changes_nothing_witness :
  prepare_dataset (Reference.world Reference.table) "foo_bar" "gpt2" 4%Z
                  None 4%Z (Some "foo")
  = prepare_dataset (Reference.world Reference.table) "foo_bar" "gpt2" 4%Z
                    None 4%Z None.
Proof.
  apply (supplying_detected_column_changes_nothing
           (Reference.world Reference.table) "foo_bar" "gpt2" 4%Z None 4%Z
           "foo").
  intros dataset H. vm_compute in H. injection H as <-. reflexivity.
Defined.

(** ** The mapped function *)

(** X6: the function handed to the map raises nothing but a
    [DatasetPreparationError] with the prefix "Tokenization failed: ",
    whether the column lookup or the tokenizer failed; when it returns,
    it returns what the tokenizer made of the values of the text column
    at the given [max_length]. *)
Theorem tokenize_function_wraps_both_failures
    (W : World) (tokenizer : Tokenizer) (col : string) (max_length : Z)
    (examples : Batch) :
  match tokenize_function W tokenizer col max_length examples with
  | Ok out =>
      exists texts,
        dict_get examples col = Some texts /\
        tokenizer_call W tokenizer texts max_length = Ok out
  | Raise e =>
      exc_class e = DatasetPreparationError /\
      exists cause,
        e = DPE ("Tokenization failed: " ++ exc_str cause) /\
        (dict_get examples col = None /\ cause = key_error col \/
         exists texts,
           dict_get examples col = Some texts /\
           tokenizer_call W tokenizer texts max_length = Raise cause)
  end.
Proof.
  unfold tokenize_function, dict_getitem.
  destruct (dict_get examples col) as [texts|]; simpl.
  - destruct (tokenizer_call W tokenizer texts max_length) as [out|cause]
      eqn:Hcall; simpl.
    + now exists texts.
    + split; [reflexivity|]. exists cause. split; [reflexivity|].
      right. now exists texts.
  - split; [reflexivity|]. exists (key_error col).
    split; [reflexivity|]. now left.
Qed.

(** ** Provisioning of the tokenizer *)

Lemma add_token_appends (v : list string) (tok : string) :
  exists extra, add_token v tok = (v ++ extra)%list /\ (length extra <= 1)%nat.
Proof.
  unfold add_token. destruct (name_in tok v).
  - exists []. split; [now rewrite app_nil_r | simpl; lia].
  - exists [tok]. split; [reflexivity | simpl; lia].
Qed.

Lemma index_from_app_some (i k : Z) (tok : string) (l extra : list string) :
  index_from i tok l = Some k -> index_from i tok (l ++ extra)%list = Some k.
Proof.
  revert i. induction l as [|x l IH]; simpl; intros i H; [discriminate H|].
  destruct (String.eqb tok x); [assumption | now apply IH].
Qed.

Lemma index_from_ge (i k : Z) (tok : string) (l : list string) :
  index_from i tok l = Some k -> (i <= k)%Z.
Proof.
  revert i. induction l as [|x l IH]; simpl; intros i H; [discriminate H|].
  destruct (String.eqb tok x).
  - injection H as <-. lia.
  - apply IH in H. lia.
Qed.

Lemma index_from_inj (i k : Z) (a b : string) (l : list string) :
  index_from i a l = Some k -> index_from i b l = Some k -> a = b.
Proof.
  revert i. induction l as [|x l IH]; simpl; intros i Ha Hb;
    [discriminate Ha|].
  destruct (String.eqb_spec a x) as [->|Hax],
           (String.eqb_spec b x) as [->|Hbx].
  - reflexivity.
  - injection Ha as <-. apply index_from_ge in Hb. lia.
  - injection Hb as <-. apply index_from_ge in Ha. lia.
  - now apply (IH (i + 1)%Z).
Qed.

(** X7: provisioning only appends to the vocabulary, at most two
    entries, so every token keeps the id it had; and provisioning a
    handle a second time changes nothing. *)
Theorem provisioning_only_appends (t : Tokenizer) :
  (exists extra,
     vocab (ensure_special_tokens t) = (vocab t ++ extra)%list /\
     (length extra <= 2)%nat) /\
  (forall tok i,
     token_id t tok = Some i ->
     token_id (ensure_special_tokens t) tok = Some i) /\
  ensure_special_tokens (ensure_special_tokens t) = ensure_special_tokens t.
Proof.
  assert (Hext : exists extra,
             vocab (ensure_special_tokens t) = (vocab t ++ extra)%list /\
             (length extra <= 2)%nat).
  { destruct t as [v [m|] [p|]]; unfold ensure_special_tokens; simpl.
    - exists []. split; [now rewrite app_nil_r | simpl; lia].
    - destruct (add_token_appends v "[PAD]") as (x & -> & Hx).
      exists x. split; [reflexivity | lia].
    - destruct (add_token_appends v "[MASK]") as (x & -> & Hx).
      exists x. split; [reflexivity | lia].
    - destruct (add_token_appends v "[MASK]") as (x & -> & Hx).
      destruct (add_token_appends (v ++ x) "[PAD]") as (y & -> & Hy).
      exists (x ++ y)%list. split; [now rewrite app_assoc|].
      rewrite length_app. lia. }
  split; [exact Hext|]. split.
  - intros tok i Hid. destruct Hext as (extra & Hv & _).
    unfold token_id in *. rewrite Hv. now apply index_from_app_some.
  - destruct t as [v [m|] [p|]]; reflexivity.
Qed.

(** X8: when the provider's handle has neither a mask token nor a pad
    token, the two ids the wrappers of a successful run are built with
    are both set and differ. *)
Theorem registered_mask_and_pad_ids_differ
    (W : World) (dataset_name tokenizer_name : string) (max_length : Z)
    (cache_dir : option string) (num_proc : Z) (text_column : option string)
    (provided : Tokenizer)
    (train_dataset : PYTORCH_Dataset) (val_dataset : option PYTORCH_Dataset)
    (tokenizer : Tokenizer) :
  from_pretrained W tokenizer_name = Ok provided ->
  mask_token provided = None ->
  pad_token provided = None ->
  prepare_dataset W dataset_name tokenizer_name max_length cache_dir
                  num_proc text_column
  = Ok (train_dataset, val_dataset, tokenizer) ->
  exists mask_id pad_id,
    pd_mask_token_id train_dataset = Some mask_id /\
    pd_pad_token_id train_dataset = Some pad_id /\
    mask_id <> pad_id.
Proof.
  intros Hprov Hm Hp Hok.
  apply prepare_dataset_ok_inv in Hok
    as (t & ds & col & rc & tokenized & Ht & _ & _ & _ & _ & Hasm).
  rewrite Hprov in Ht. injection Ht as <-.
  pose proof (assemble_tokenizer _ _ _ _ _ Hasm) as ->.
  apply assemble_spec in Hasm as (train & _ & -> & _). simpl.
  destruct provided as [v m p]. simpl in Hm, Hp. subst m p.
  unfold ensure_special_tokens, mask_token_id, pad_token_id, token_id.
  simpl.
  set (v2 := add_token (add_token v "[MASK]") "[PAD]").
  assert (Hmask : In "[MASK]" v2)
    by (apply add_token_keeps, add_token_In).
  assert (Hpad : In "[PAD]" v2) by apply add_token_In.
  destruct (index_from 0 "[MASK]" v2) as [mask_id|] eqn:Em;
    [|now destruct (index_from_In 0 _ _ Hmask)].
  destruct (index_from 0 "[PAD]" v2) as [pad_id|] eqn:Ep;
    [|now destruct (index_from_In 0 _ _ Hpad)].
  exists mask_id, pad_id. repeat split.
  intros <-. pose proof (index_from_inj _ _ _ _ _ Em Ep) as E.
  discriminate E.
Qed.

Lemma registered_mask_and_pad_ids_differ_witness :
  exists mask_id pad_id,
    pd_mask_token_id
      (mkPYTORCH_Dataset
         (mkDataset ["bar"; "input_ids"; "attention_mask"]
            [[("bar", PyInt 7);
              ("input_ids",
               PyList [PyInt 104; PyInt 101; PyInt 108; PyInt 108]);
              ("attention_mask",
               PyList [PyInt 1; PyInt 1; PyInt 1; PyInt 1])]])
         (Some 3%Z) (Some 4%Z)) = Some mask_id /\
    pd_pad_token_id
      (mkPYTORCH_Dataset
         (mkDataset ["bar"; "input_ids"; "attention_mask"]
            [[("bar", PyInt 7);
              ("input_ids",
               PyList [PyInt 104; PyInt 101; PyInt 108; PyInt 108]);
              ("attention_mask",
               PyList [PyInt 1; PyInt 1; PyInt 1; PyInt 1])]])
         (Some 3%Z) (Some 4%Z)) = Some pad_id /\
    mask_id <> pad_id.
Proof.
  eapply (registered_mask_and_pad_ids_differ
            (Reference.world Reference.table) "foo_bar" "gpt2" 4%Z None 4%Z
            None Reference.bare_tokenizer).
  - reflexivity.
  - reflexivity.
  - reflexivity.
  - vm_compute. reflexivity.
Defined.

(** ** The validation split of the raw dataset *)

Lemma dict_contains_same_keys {V : Type} (a b : Dict V) (k : string) :
  dict_keys a = dict_keys b -> dict_contains a k = dict_contains b k.
Proof.
  unfold dict_contains. revert b.
  induction a as [|[ka va] a IH]; intros [|[kb vb] b] H;
    simpl in H; try discriminate H; [reflexivity|].
  injection H as <- H. simpl.
  destruct (String.eqb k ka); [reflexivity | now apply IH].
Qed.

Lemma map_splits_keys (function : Batch -> Result Batch)
    (remove_columns : option (list string)) (d : DatasetDict) :
  forall mapped,
    Reference.map_splits function remove_columns d = Ok mapped ->
    dict_keys mapped = dict_keys d.
Proof.
  induction d as [|[n0 s0] rest IH]; intros mapped H; simpl in H.
  - now injection H as <-.
  - destruct (Reference.map_split function remove_columns s0); simpl in H;
      [|discriminate H].
    destruct (Reference.map_splits function remove_columns rest)
      as [rest'|]; simpl in H; [|discriminate H].
    injection H as <-. simpl. f_equal. now apply IH.
Qed.

Lemma reference_world_keeps_splits (table : Dict DatasetDict) :
  map_keeps_splits (Reference.world table).
Proof.
  intros function num_proc remove_columns dataset mapped Hmap name.
  apply dict_contains_same_keys. now apply (map_splits_keys _ _ _ _ Hmap).
Qed.

(** X9: with a map that keeps the splits, a run whose map succeeds
    returns, and its second value follows the raw dataset: it is [None]
    when the raw dataset has no split "validation", and the wrapper of
    the tokenized validation split, with the ids of the train wrapper,
    when it has one. *)
Theorem validation_follows_raw_dataset
    (W : World) (dataset_name tokenizer_name : string) (max_length : Z)
    (cache_dir : option string) (num_proc : Z) (text_column : option string)
    (provided : Tokenizer) (dataset : DatasetDict) (col : string)
    (remove_columns : option (list string)) (tokenized : DatasetDict) :
  map_keeps_splits W ->
  from_pretrained W tokenizer_name = Ok provided ->
  load_dataset W dataset_name cache_dir = Ok dataset ->
  resolve_text_column dataset text_column = Ok col ->
  remove_columns_arg dataset col = Ok remove_columns ->
  dataset_map W
    (tokenize_function W (ensure_special_tokens provided) col max_length)
    num_proc remove_columns dataset = Ok tokenized ->
  exists train,
    dict_get tokenized "train" = Some train /\
    (dict_contains dataset "validation" = false ->
     prepare_dataset W dataset_name tokenizer_name max_length cache_dir
                     num_proc text_column
     = Ok (mkPYTORCH_Dataset train
             (mask_token_id (ensure_special_tokens provided))
             (pad_token_id (ensure_special_tokens provided)),
           None,
           ensure_special_tokens provided)) /\
    (dict_contains dataset "validation" = true ->
     exists validation,
       dict_get tokenized "validation" = Some validation /\
       prepare_dataset W dataset_name tokenizer_name max_length cache_dir
                       num_proc text_column
       = Ok (mkPYTORCH_Dataset train
               (mask_token_id (ensure_special_tokens provided))
               (pad_token_id (ensure_special_tokens provided)),
             Some (mkPYTORCH_Dataset validation
                     (mask_token_id (ensure_special_tokens provided))
                     (pad_token_id (ensure_special_tokens provided))),
             ensure_special_tokens provided)).
Proof.
  intros Hkeep Htok Hload Hcol Hrc Hmap.
  destruct (remove_columns_arg_spec _ _ _ Hrc) as (raw_train & Hraw & _).
  assert (Hhas : dict_contains tokenized "train" = true).
  { rewrite (Hkeep _ _ _ _ _ Hmap "train").
    unfold dict_contains. now rewrite Hraw. }
  apply dict_contains_get in Hhas as (train & Htrain).
  exists train. split; [assumption|].
  rewrite (prepare_dataset_stages _ _ _ _ _ _ _ _ _ _ _ _
             Htok Hload Hcol Hrc Hmap).
  rewrite (assemble_ok _ _ _ Htrain). simpl.
  rewrite <- (Hkeep _ _ _ _ _ Hmap "validation").
  unfold dict_contains.
  destruct (dict_get tokenized "validation") as [validation|]; split;
    intros H; try discriminate H; try reflexivity.
  now exists validation.
Qed.

(** Two runs: a raw dataset without a validation split, and one with. *)
Lemma validation_follows_raw_dataset_witness :
  prepare_dataset (Reference.world Reference.table) "foo_bar" "gpt2" 4%Z
                  None 4%Z None
  = Ok (mkPYTORCH_Dataset
          (mkDataset ["bar"; "input_ids"; "attention_mask"]
             [[("bar", PyInt 7);
               ("input_ids",
                PyList [PyInt 104; PyInt 101; PyInt 108; PyInt 108]);
               ("attention_mask",
                PyList [PyInt 1; PyInt 1; PyInt 1; PyInt 1])]])
          (Some 3%Z) (Some 4%Z),
        None,
        Reference.provisioned_tokenizer)
  /\
  exists validation,
    prepare_dataset (Reference.world Reference.table) "with_validation"
                    "bert" 4%Z None 4%Z None
    = Ok (Reference.with_validation_train,
          Some (mkPYTORCH_Dataset validation (Some 1%Z) (Some 0%Z)),
          Reference.full_tokenizer).
Proof.
  split.
  - destruct (validation_follows_raw_dataset
                (Reference.world Reference.table) "foo_bar" "gpt2" 4%Z None
                4%Z None Reference.bare_tokenizer Reference.foo_bar "foo"
                (Some ["foo"])
                [("train",
                  mkDataset ["bar"; "input_ids"; "attention_mask"]
                    [[("bar", PyInt 7);
                      ("input_ids",
                       PyList [PyInt 104; PyInt 101; PyInt 108; PyInt 108]);
                      ("attention_mask",
                       PyList [PyInt 1; PyInt 1; PyInt 1; PyInt 1])]])]
                (reference_world_keeps_splits Reference.table)
                eq_refl eq_refl eq_refl eq_refl eq_refl)
      as (train & Htrain & Hnone & _).
    vm_compute in Htrain. injection Htrain as <-.
    exact (Hnone eq_refl).
  - destruct (validation_follows_raw_dataset
                (Reference.world Reference.table) "with_validation" "bert"
                4%Z None 4%Z None Reference.full_tokenizer
                Reference.with_validation "text" (Some ["text"])
                [("train", Reference.encoded 1 97);
                 ("validation", Reference.encoded 0 98)]
                (reference_world_keeps_splits Reference.table)
                eq_refl eq_refl eq_refl eq_refl eq_refl)
      as (train & Htrain & _ & Hsome).
    vm_compute in Htrain. injection Htrain as <-.
    destruct (Hsome eq_refl) as (validation & _ & Hrun).
    exists validation. exact Hrun.
Defined.
